(** * react-native-image-viewing: the overlay component [ImageViewing]

    A shallow embedding of [src/ImageViewing.tsx].  The component is a
    React function component: its hooks hold a small state, its event
    handlers update that state and call back into the host application,
    and its body renders a view from props and state.  Here the hook
    state is a record, a handler is a function from state to a new state
    and the list of callbacks it made, and rendering is a pure function. *)

From Stdlib Require Import List String DecimalString ZArith QArith Qround Bool Lia.
Import ListNotations.
Local Open Scope Z_scope.

(** ** Data: [./@types] and the props of the component *)

(** [ImageSource] as the component reads it: [imageSrc.uri] (line 185),
    [imageSrc.type] (line 146) and [imageSrc.print_button] (line 163).
    A field a JS object does not carry reads as [undefined], here [None]. *)
Record ImageSource : Type := {
  uri : option string;
  type : option string;
  print_button : option bool
}.

(** [Dimensions.get("screen")]: only [width] and [height] are used. *)
Record Dimensions : Type := {
  width : Q;
  height : Q
}.

(** A caller-supplied component ([ComponentType<{ imageIndex: number }>]),
    known by its identity only. *)
Inductive ComponentType : Type :=
| Component (name : string).

(** The calls the overlay makes into the host application. *)
Inductive Call : Type :=
| CallOnRequestClose
| CallOnImageIndexChange (imageIndex : Z)
| CallVideoButtonCallback (video : ImageSource)
| CallPrintButtonCallback (item : ImageSource).

(** [type Props] (lines 33-48).  An optional callback is kept as the
    boolean the code tests it for ([if (onImageIndexChange)]): [true]
    when the caller supplied it; calling it is recorded as a [Call]. *)
Record Props : Type := {
  images : list ImageSource;
  imageIndex : Z;
  visible : bool;
  onImageIndexChange : bool;
  animationType : option string;
  backgroundColor : option string;
  swipeToCloseEnabled : option bool;
  doubleTapToZoomEnabled : option bool;
  HeaderComponent : option ComponentType;
  FooterComponent : option ComponentType;
  VideoButtonCallback : bool;
  PrintButtonCallback : bool
}.

Definition DEFAULT_ANIMATION_TYPE : string := "fade".
Definition DEFAULT_BG_COLOR : string := "#000".

(** ** Hook state *)

(** The native props of the mounted [VirtualizedList] that the component
    writes through its ref. *)
Record VirtualizedList : Type := {
  scrollEnabled : bool
}.

(** One field per hook of the body (lines 71-79). *)
Record State : Type := {
  imageList : option VirtualizedList;   (* imageList.current *)
  opacity : Q;                          (* useRequestClose *)
  currentImageIndex : Z;                (* useImageIndexChange *)
  barsVisible : bool;                   (* useAnimatedComponents *)
  imageLoaded : bool                    (* useState(false) *)
}.

(** ** Handlers: state passing with a log of the calls made *)

Definition Handler : Type := State -> State * list Call.

Definition skip : Handler := fun s => (s, []).

Definition call (c : Call) : Handler := fun s => (s, [c]).

Definition andThen (h1 h2 : Handler) : Handler :=
  fun s =>
    let (s1, c1) := h1 s in
    let (s2, c2) := h2 s1 in
    (s2, c1 ++ c2).

Notation "h1 ;; h2" := (andThen h1 h2) (at level 61, right associativity).

Definition setImageLoaded (b : bool) : Handler :=
  fun s =>
    ({| imageList := imageList s; opacity := opacity s;
        currentImageIndex := currentImageIndex s;
        barsVisible := barsVisible s; imageLoaded := b |}, []).

Definition setImageIndex (i : Z) : Handler :=
  fun s =>
    ({| imageList := imageList s; opacity := opacity s;
        currentImageIndex := i;
        barsVisible := barsVisible s; imageLoaded := imageLoaded s |}, []).

Definition setOpacity (o : Q) : Handler :=
  fun s =>
    ({| imageList := imageList s; opacity := o;
        currentImageIndex := currentImageIndex s;
        barsVisible := barsVisible s; imageLoaded := imageLoaded s |}, []).

Definition setBarsVisible (b : bool) : Handler :=
  fun s =>
    ({| imageList := imageList s; opacity := opacity s;
        currentImageIndex := currentImageIndex s;
        barsVisible := b; imageLoaded := imageLoaded s |}, []).

(** [imageList?.current?.setNativeProps({ scrollEnabled })]: nothing
    happens while the ref is not attached. *)
Definition setNativeProps_scrollEnabled (b : bool) : Handler :=
  fun s =>
    match imageList s with
    | Some _ =>
        ({| imageList := Some {| scrollEnabled := b |}; opacity := opacity s;
            currentImageIndex := currentImageIndex s;
            barsVisible := barsVisible s; imageLoaded := imageLoaded s |}, [])
    | None => (s, [])
    end.

(** ** The hooks, which are not among the sources *)

(** [Math.round]: the nearest integer, halves upwards. *)
Definition round (q : Q) : Z := Qfloor (q + (1 # 2)).

Definition clamp (lo hi x : Z) : Z := Z.max lo (Z.min hi x).

(** The payload of a scroll event of the host list. *)
Record NativeScrollEvent : Type := {
  contentOffset_x : Q
}.

Module useImageIndexChange.

(** Modelled from the spec: [hooks/useImageIndexChange] is missing.
    Section 4.4: the initial state has [currentIndex = initialIndex]. *)
Definition initial (imageIndex : Z) (SCREEN : Dimensions) : Z := imageIndex.

(** Modelled from the spec: [hooks/useImageIndexChange] is missing.
    Section 4.4: on a momentum-end event the new index is
    [round(offset / pageWidth)], clamped to the valid range.  The call
    at line 73 hands the hook [imageIndex] and [SCREEN] only; the number
    of images that the clamp of the spec needs is an argument here.  A
    screen of width 0 is not covered by the spec; the quotient is 0 then. *)
Definition settledIndex (SCREEN : Dimensions) (imageCount : nat)
    (e : NativeScrollEvent) : Z :=
  clamp 0 (Z.of_nat imageCount - 1) (round (contentOffset_x e / width SCREEN)).

(** Modelled from the spec: [hooks/useImageIndexChange] is missing.
    Section 4.4: [currentIndex] is updated to the settled index (setting
    it to the value it has changes nothing). *)
Definition onScroll (SCREEN : Dimensions) (imageCount : nat)
    (e : NativeScrollEvent) : Handler :=
  setImageIndex (settledIndex SCREEN imageCount e).

End useImageIndexChange.

Module useRequestClose.

(** Modelled from the spec: [hooks/useRequestClose] is missing.  The
    overlay starts opaque. *)
Definition initial : Q := 1.

(** Modelled from the spec: [hooks/useRequestClose] is missing.
    Section 4.3: an explicit close fades the overlay out and invokes
    [onRequestClose]. *)
Definition onRequestCloseEnhanced : Handler :=
  setOpacity 0 ;; call CallOnRequestClose.

End useRequestClose.

Module useAnimatedComponents.

(** Modelled from the spec: [hooks/useAnimatedComponents] is missing.
    The bars start docked. *)
Definition initial : bool := true.

(** Modelled from the spec: [hooks/useAnimatedComponents] is missing.
    Section 4.5: [setVisible(bool)] makes the given value the target of
    the header and footer animation; the latest call wins. *)
Definition toggleBarsVisible (isVisible : bool) : Handler :=
  setBarsVisible isVisible.

End useAnimatedComponents.

(** ** The component [ImageViewing] (lines 55-199) *)

(** What the host delivers to a mounted overlay.  An item is named by its
    position in [images]; every rendered [ImageItem] is handed the same
    [onZoom], [onLoad] and [onRequestClose] (lines 139-142). *)
Inductive Event : Type :=
| MomentumScrollEnd (e : NativeScrollEvent)   (* the list settles on a page *)
| Scroll (e : NativeScrollEvent)              (* the list moves, scroll in flight *)
| ItemZoom (index : nat) (isScaled : bool)    (* an ImageItem calls onZoom *)
| ItemLoad (index : nat)                      (* an ImageItem calls onLoad *)
| ItemRequestClose (index : nat)              (* an ImageItem calls onRequestClose *)
| PressPlay (index : nat)                     (* tap on the play button of an item *)
| PressPrint (index : nat)                    (* tap on the print button of an item *)
| PressClose.                                 (* tap on the close button of the default header *)

(** The effect of lines 81-86, run by React after the first render and
    after every render in which [currentImageIndex] differs from the
    previous one. *)
Definition indexChangeEffect (props : Props) (currentImageIndex : Z) : Handler :=
  if onImageIndexChange props
  then setImageLoaded false ;; call (CallOnImageIndexChange currentImageIndex)
  else skip.

(** Line 88. *)
Definition onFinishLoad : Handler := setImageLoaded true.

(** Lines 90-97. *)
Definition onZoom (isScaled : bool) : Handler :=
  setNativeProps_scrollEnabled (negb isScaled) ;;
  useAnimatedComponents.toggleBarsVisible (negb isScaled).

(** [imageSrc.type == "VideoMessage"] (line 146). *)
Definition isVideoMessage (imageSrc : ImageSource) : bool :=
  match type imageSrc with
  | Some t => String.eqb t "VideoMessage"
  | None => false
  end.

(** [imageSrc.print_button == true] (line 163). *)
Definition hasPrintButton (imageSrc : ImageSource) : bool :=
  match print_button imageSrc with
  | Some b => b
  | None => false
  end.

(** [onPress] of the play button (lines 155-159). *)
Definition onPressPlay (props : Props) (imageSrc : ImageSource) : Handler :=
  if VideoButtonCallback props then call (CallVideoButtonCallback imageSrc) else skip.

(** [onPress] of the print button (lines 166-170). *)
Definition onPressPrint (props : Props) (imageSrc : ImageSource) : Handler :=
  if PrintButtonCallback props then call (CallPrintButtonCallback imageSrc) else skip.

(** [keyExtractor] (line 185).  The list calls it with the item and its
    position; the function given takes the item only. *)
Definition keyExtractor (imageSrc : ImageSource) (index : nat) : option string :=
  uri imageSrc.

(** What [renderItem] (lines 136-183) puts on the page of one item. *)
Record ItemView : Type := {
  imageItem : ImageSource;     (* <ImageItem imageSrc={imageSrc} ... /> *)
  playButton : bool;           (* the MaterialIcons.Button is rendered *)
  printButton : bool           (* the TouchableOpacity is rendered *)
}.

Definition renderItem (s : State) (imageSrc : ImageSource) : ItemView :=
  {| imageItem := imageSrc;
     playButton := isVideoMessage imageSrc;
     printButton := hasPrintButton imageSrc && imageLoaded s |}.

(** The header and footer slots. *)
Inductive Element : Type :=
| createElement (c : ComponentType) (imageIndex : Z)
| ImageDefaultHeader (onRequestClose : Event).

(** The rendered tree (lines 99-198), as far as it depends on props and
    state. *)
Record View : Type := {
  modal_visible : bool;
  modal_animationType : string;
  container_opacity : Q;
  container_backgroundColor : string;
  header : Element;
  list_data : list ImageSource;
  list_initialScrollIndex : Z;
  list_itemCount : nat;
  list_keys : list (option string);
  list_items : list ItemView;
  footer : option Element
}.

Fixpoint keysFrom (index : nat) (data : list ImageSource) : list (option string) :=
  match data with
  | [] => []
  | imageSrc :: rest => keyExtractor imageSrc index :: keysFrom (S index) rest
  end.

Definition default {A : Type} (o : option A) (d : A) : A :=
  match o with
  | Some a => a
  | None => d
  end.

Definition render (props : Props) (s : State) : View :=
  {| modal_visible := visible props;
     modal_animationType := default (animationType props) DEFAULT_ANIMATION_TYPE;
     container_opacity := opacity s;
     container_backgroundColor := default (backgroundColor props) DEFAULT_BG_COLOR;
     header :=
       match HeaderComponent props with
       | Some c => createElement c (currentImageIndex s)
       | None => ImageDefaultHeader PressClose
       end;
     list_data := images props;
     list_initialScrollIndex := imageIndex props;
     list_itemCount := List.length (images props);
     list_keys := keysFrom 0 (images props);
     list_items := map (renderItem s) (images props);
     footer :=
       match FooterComponent props with
       | Some c => Some (createElement c (currentImageIndex s))
       | None => None
       end |}.

(** The handler an event reaches.  [getItem] is [images[index]]
    (line 129); an event of a page that is not in the list, or a tap on a
    button that is not rendered, reaches nothing. *)
Definition forItem (props : Props) (index : nat) (h : ImageSource -> Handler) : Handler :=
  match nth_error (images props) index with
  | Some imageSrc => h imageSrc
  | None => skip
  end.

Definition dispatch (SCREEN : Dimensions) (props : Props) (ev : Event) : Handler :=
  match ev with
  | MomentumScrollEnd e =>                       (* line 184 *)
      useImageIndexChange.onScroll SCREEN (List.length (images props)) e
  | Scroll _ => skip                             (* no onScroll prop is passed *)
  | ItemZoom index isScaled => forItem props index (fun _ => onZoom isScaled)
  | ItemLoad index => forItem props index (fun _ => onFinishLoad)
  | ItemRequestClose index =>
      forItem props index (fun _ => useRequestClose.onRequestCloseEnhanced)
  | PressPlay index =>
      forItem props index (fun imageSrc s =>
        if playButton (renderItem s imageSrc)
        then onPressPlay props imageSrc s else skip s)
  | PressPrint index =>
      forItem props index (fun imageSrc s =>
        if printButton (renderItem s imageSrc)
        then onPressPrint props imageSrc s else skip s)
  | PressClose =>
      match HeaderComponent props with
      | Some _ => skip
      | None => useRequestClose.onRequestCloseEnhanced
      end
  end.

(** [useEffect(..., [currentImageIndex])] after an update: the effect
    runs when the index differs from the one of the previous render. *)
Definition runEffects (props : Props) (previousIndex : Z) : Handler :=
  fun s =>
    if currentImageIndex s =? previousIndex then skip s
    else indexChangeEffect props (currentImageIndex s) s.

(** One event: its handler, the re-render, the effects. *)
Definition step (SCREEN : Dimensions) (props : Props) (ev : Event) : Handler :=
  fun s => (dispatch SCREEN props ev ;; runEffects props (currentImageIndex s)) s.

(** The state of the first render: every hook at its initial value, the
    list mounted and its ref attached (line 119), scrolling enabled. *)
Definition initialState (SCREEN : Dimensions) (props : Props) : State :=
  {| imageList := Some {| scrollEnabled := true |};
     opacity := useRequestClose.initial;
     currentImageIndex := useImageIndexChange.initial (imageIndex props) SCREEN;
     barsVisible := useAnimatedComponents.initial;
     imageLoaded := false |}.

(** Mounting: the first render, then the effect. *)
Definition mount (SCREEN : Dimensions) (props : Props) : State * list Call :=
  let s := initialState SCREEN props in
  indexChangeEffect props (currentImageIndex s) s.

(** A run of events from a state, props unchanged. *)
Fixpoint run (SCREEN : Dimensions) (props : Props) (evs : list Event) : Handler :=
  match evs with
  | [] => skip
  | ev :: rest => step SCREEN props ev ;; run SCREEN props rest
  end.

(** The life of one mounted overlay. *)
Definition session (SCREEN : Dimensions) (props : Props) (evs : list Event)
    : State * list Call :=
  let (s0, c0) := mount SCREEN props in
  let (s, c) := run SCREEN props evs s0 in
  (s, c0 ++ c).

(** The states a mounted overlay can be in. *)
Inductive Reachable (SCREEN : Dimensions) (props : Props) : State -> Prop :=
| reach_mount : Reachable SCREEN props (fst (mount SCREEN props))
| reach_step (s : State) (ev : Event) :
    Reachable SCREEN props s ->
    Reachable SCREEN props (fst (step SCREEN props ev s)).

(** The ref of the list is attached. *)
Definition attached (s : State) : Prop := imageList s <> None.

(** Some page of the list has reported its load in [evs]. *)
Definition loadSeen (props : Props) (evs : list Event) : Prop :=
  exists index : nat,
    (index < List.length (images props))%nat /\ In (ItemLoad index) evs.


(** The arguments of the calls to [onImageIndexChange] in a log. *)
Fixpoint indexChangeCalls (calls : list Call) : list Z :=
  match calls with
  | [] => []
  | CallOnImageIndexChange i :: rest => i :: indexChangeCalls rest
  | _ :: rest => indexChangeCalls rest
  end.

(** ** The exported component [EnhancedImageViewing] (lines 229-231) *)

(** A mounted [ImageViewing] element with the React key it was given. *)
Record Instance : Type := {
  key : Z;
  instanceProps : Props;
  instanceState : State
}.

(** One render of the wrapper: the child is [<ImageViewing
    key={props.imageIndex} {...props} />].  React keeps the mounted child
    and its state when the key is the one of the previous render, and
    unmounts it and mounts a new one when the key differs. *)
Definition EnhancedImageViewing (SCREEN : Dimensions) (previous : option Instance)
    (props : Props) : Instance * list Call :=
  let fresh :=
    let (s, calls) := mount SCREEN props in
    ({| key := imageIndex props; instanceProps := props; instanceState := s |}, calls) in
  match previous with
  | None => fresh
  | Some child =>
      if key child =? imageIndex props
      then ({| key := imageIndex props; instanceProps := props;
               instanceState := instanceState child |}, [])
      else fresh
  end.

(** Events since the last one that changed [currentImageIndex], oldest
    first; [acc] holds those seen since the last change before [evs]. *)
Fixpoint eventsSinceIndexChange (SCREEN : Dimensions) (props : Props) (s : State)
    (evs acc : list Event) : list Event :=
  match evs with
  | [] => acc
  | ev :: rest =>
      let s' := fst (step SCREEN props ev s) in
      if currentImageIndex s' =? currentImageIndex s
      then eventsSinceIndexChange SCREEN props s' rest (acc ++ [ev])
      else eventsSinceIndexChange SCREEN props s' rest []
  end.

(** [String(index)]: a list position written as a key. *)
Definition positionKey (index : nat) : string :=
  NilZero.string_of_uint (Nat.to_uint index).

(** ** The list props of lines 129-130 *)



(** ** Reading a log of calls *)

(** The prop a call goes to was handed in by the caller.
    [onRequestClose] is a required prop; the other three are optional. *)
Definition supplied (props : Props) (c : Call) : bool :=
  match c with
  | CallOnRequestClose => true
  | CallOnImageIndexChange _ => onImageIndexChange props
  | CallVideoButtonCallback _ => VideoButtonCallback props
  | CallPrintButtonCallback _ => PrintButtonCallback props
  end.

(** No two neighbours of the list are equal. *)
Fixpoint noStutter (l : list Z) : Prop :=
  match l with
  | a :: (b :: _) as rest => a <> b /\ noStutter rest
  | _ => True
  end.

(** ** A small gallery to run the component on *)

Module Gallery.

Definition SCREEN : Dimensions := {| width := 400; height := 800 |}.

Definition receipt : ImageSource :=
  {| uri := Some "file:///receipt.png"%string; type := None; print_button := Some true |}.

Definition clip : ImageSource :=
  {| uri := Some "file:///clip.mp4"%string; type := Some "VideoMessage"%string;
     print_button := None |}.

Definition photo : ImageSource :=
  {| uri := Some "file:///photo.jpg"%string; type := Some "ImageMessage"%string;
     print_button := Some false |}.

Definition broken : ImageSource :=
  {| uri := None; type := None; print_button := None |}.

Definition banner : ComponentType := Component "Banner".
Definition caption : ComponentType := Component "Caption".

(** A caller that listens to nothing and brings no chrome of its own. *)
Definition quiet (imgs : list ImageSource) (index : Z) : Props :=
  {| images := imgs; imageIndex := index; visible := true;
     onImageIndexChange := false;
     animationType := None; backgroundColor := None;
     swipeToCloseEnabled := None; doubleTapToZoomEnabled := None;
     HeaderComponent := None; FooterComponent := None;
     VideoButtonCallback := false; PrintButtonCallback := false |}.

(** A caller that supplies every callback and both slots. *)
Definition full (imgs : list ImageSource) (index : Z) : Props :=
  {| images := imgs; imageIndex := index; visible := true;
     onImageIndexChange := true;
     animationType := None; backgroundColor := None;
     swipeToCloseEnabled := Some true; doubleTapToZoomEnabled := Some true;
     HeaderComponent := Some banner; FooterComponent := Some caption;
     VideoButtonCallback := true; PrintButtonCallback := true |}.

Definition album : list ImageSource := [receipt; clip; photo].

(** The list comes to rest on page [page]. *)
Definition settleOn (page : Z) : Event :=
  MomentumScrollEnd {| contentOffset_x := inject_Z (400 * page) |}.

End Gallery.

(** ** Unfolding handlers *)

Lemma andThen_fst (h1 h2 : Handler) (s : State) :
  fst ((h1 ;; h2) s) = fst (h2 (fst (h1 s))).
Proof.
  unfold andThen. destruct (h1 s) as [s1 c1]. simpl.
  destruct (h2 s1) as [s2 c2]. reflexivity.
Qed.

Lemma andThen_snd (h1 h2 : Handler) (s : State) :
  snd ((h1 ;; h2) s) = snd (h1 s) ++ snd (h2 (fst (h1 s))).
Proof.
  unfold andThen. destruct (h1 s) as [s1 c1]. simpl.
  destruct (h2 s1) as [s2 c2]. reflexivity.
Qed.

Lemma step_fst (SCREEN : Dimensions) (props : Props) (ev : Event) (s : State) :
  fst (step SCREEN props ev s) =
  fst (runEffects props (currentImageIndex s) (fst (dispatch SCREEN props ev s))).
Proof. unfold step. apply andThen_fst. Qed.

Lemma step_snd (SCREEN : Dimensions) (props : Props) (ev : Event) (s : State) :
  snd (step SCREEN props ev s) =
  snd (dispatch SCREEN props ev s) ++
  snd (runEffects props (currentImageIndex s) (fst (dispatch SCREEN props ev s))).
Proof. unfold step. apply andThen_snd. Qed.

Lemma run_cons_fst (SCREEN : Dimensions) (props : Props) (ev : Event)
    (rest : list Event) (s : State) :
  fst (run SCREEN props (ev :: rest) s) =
  fst (run SCREEN props rest (fst (step SCREEN props ev s))).
Proof. simpl. apply andThen_fst. Qed.

Lemma session_fst (SCREEN : Dimensions) (props : Props) (evs : list Event) :
  fst (session SCREEN props evs) =
  fst (run SCREEN props evs (fst (mount SCREEN props))).
Proof.
  unfold session. destruct (mount SCREEN props) as [s0 c0]. simpl.
  destruct (run SCREEN props evs s0) as [s c]. reflexivity.
Qed.

(** The end of a session is a reachable state. *)
Lemma run_reachable (SCREEN : Dimensions) (props : Props) (evs : list Event) :
  forall s, Reachable SCREEN props s ->
            Reachable SCREEN props (fst (run SCREEN props evs s)).
Proof.
  induction evs as [| ev rest IH]; intros s Hs.
  - exact Hs.
  - rewrite run_cons_fst. apply IH. apply reach_step. exact Hs.
Qed.

Lemma session_reachable (SCREEN : Dimensions) (props : Props) (evs : list Event) :
  Reachable SCREEN props (fst (session SCREEN props evs)).
Proof. rewrite session_fst. apply run_reachable. apply reach_mount. Qed.

(** Only a handler is ever skipped for a page outside the list. *)
Lemma forItem_in_list (props : Props) (index : nat) (h : ImageSource -> Handler) :
  (index < List.length (images props))%nat ->
  exists imageSrc,
    nth_error (images props) index = Some imageSrc /\
    forItem props index h = h imageSrc.
Proof.
  intros Hlt. unfold forItem.
  destruct (nth_error (images props) index) as [imageSrc |] eqn:E.
  - exists imageSrc. split; reflexivity.
  - apply nth_error_None in E. lia.
Qed.

(** Case analysis on everything a step branches on. *)
Ltac step_cases :=
  repeat match goal with
         | |- context [match nth_error ?l ?i with _ => _ end] =>
             destruct (nth_error l i)
         | |- context [match HeaderComponent ?p with _ => _ end] =>
             destruct (HeaderComponent p)
         | |- context [match imageList ?s with _ => _ end] =>
             destruct (imageList s) eqn:?
         | |- context [if ?b then _ else _] => destruct b eqn:?
         end.

Ltac unfold_handlers :=
  unfold dispatch, forItem, runEffects, indexChangeEffect, onZoom, onFinishLoad,
    onPressPlay, onPressPrint, renderItem,
    useImageIndexChange.onScroll, useRequestClose.onRequestCloseEnhanced,
    useAnimatedComponents.toggleBarsVisible, setNativeProps_scrollEnabled,
    setImageLoaded, setImageIndex, setOpacity, setBarsVisible, call, skip,
    andThen in *.

(** ** The list ref *)

Lemma step_keeps_attached (SCREEN : Dimensions) (props : Props) (ev : Event) (s : State) :
  attached s -> attached (fst (step SCREEN props ev s)).
Proof.
  unfold attached, step. intros Hs.
  destruct ev; unfold_handlers; simpl; step_cases; simpl;
    solve [exact Hs | discriminate | congruence].
Qed.

Lemma reachable_attached (SCREEN : Dimensions) (props : Props) (s : State) :
  Reachable SCREEN props s -> attached s.
Proof.
  induction 1 as [| s ev _ IH].
  - unfold attached, mount, indexChangeEffect.
    destruct (onImageIndexChange props); simpl; discriminate.
  - apply step_keeps_attached. exact IH.
Qed.

(** ** Zoom: bars and paging *)

(** What [onZoom] leaves behind, whatever the state it starts from. *)
Lemma onZoom_state (isScaled : bool) (s : State) :
  barsVisible (fst (onZoom isScaled s)) = negb isScaled /\
  currentImageIndex (fst (onZoom isScaled s)) = currentImageIndex s /\
  (attached s ->
   imageList (fst (onZoom isScaled s)) = Some {| scrollEnabled := negb isScaled |}).
Proof.
  unfold attached, onZoom. unfold_handlers.
  destruct (imageList s) eqn:E; simpl; repeat split; congruence.
Qed.

Lemma step_ItemZoom (SCREEN : Dimensions) (props : Props) (s : State)
    (index : nat) (isScaled : bool) :
  (index < List.length (images props))%nat ->
  fst (step SCREEN props (ItemZoom index isScaled) s) = fst (onZoom isScaled s).
Proof.
  intros Hlt. rewrite step_fst. simpl dispatch.
  destruct (forItem_in_list props index (fun _ => onZoom isScaled) Hlt)
    as [imageSrc [_ ->]].
  unfold runEffects.
  destruct (onZoom_state isScaled s) as [_ [-> _]].
  rewrite Z.eqb_refl. reflexivity.
Qed.

(** C4: when an item of the list reports [onZoom(isScaled)], the bars-visible
    value becomes [!isScaled]: [false] on [onZoom(true)], [true] again on
    [onZoom(false)]. *)
Theorem onZoom_sets_barsVisible (SCREEN : Dimensions) (props : Props) (s : State)
    (index : nat) (isScaled : bool) :
  (index < List.length (images props))%nat ->
  barsVisible (fst (step SCREEN props (ItemZoom index isScaled) s)) = negb isScaled.
Proof.
  intros Hlt. rewrite (step_ItemZoom SCREEN props s index isScaled Hlt).
  apply onZoom_state.
Qed.

Lemma onZoom_sets_barsVisible_witness :
  barsVisible
    (fst (step Gallery.SCREEN (Gallery.full Gallery.album 0) (ItemZoom 1 true)
            (fst (mount Gallery.SCREEN (Gallery.full Gallery.album 0))))) = false
  /\
  barsVisible
    (fst (step Gallery.SCREEN (Gallery.full Gallery.album 0) (ItemZoom 1 false)
            (fst (session Gallery.SCREEN (Gallery.full Gallery.album 0)
                    [ItemZoom 1 true])))) = true.
Proof.
  split.
  - apply (onZoom_sets_barsVisible Gallery.SCREEN (Gallery.full Gallery.album 0)
             _ 1%nat true). simpl. lia.
  - apply (onZoom_sets_barsVisible Gallery.SCREEN (Gallery.full Gallery.album 0)
             _ 1%nat false). simpl. lia.
Defined.

(** C10: when an item of the list reports [onZoom(isScaled)] to a mounted
    overlay, [scrollEnabled] of the host list is set to [!isScaled]: paging
    is off while the item is zoomed and on again when it zooms back out. *)
Theorem onZoom_sets_scrollEnabled (SCREEN : Dimensions) (props : Props) (s : State)
    (index : nat) (isScaled : bool) :
  Reachable SCREEN props s ->
  (index < List.length (images props))%nat ->
  imageList (fst (step SCREEN props (ItemZoom index isScaled) s)) =
  Some {| scrollEnabled := negb isScaled |}.
Proof.
  intros Hs Hlt. rewrite (step_ItemZoom SCREEN props s index isScaled Hlt).
  apply onZoom_state. apply (reachable_attached SCREEN props). exact Hs.
Qed.

Lemma onZoom_sets_scrollEnabled_witness :
  imageList
    (fst (step Gallery.SCREEN (Gallery.quiet Gallery.album 0) (ItemZoom 0 true)
            (fst (mount Gallery.SCREEN (Gallery.quiet Gallery.album 0))))) =
  Some {| scrollEnabled := false |}
  /\
  imageList
    (fst (step Gallery.SCREEN (Gallery.quiet Gallery.album 0) (ItemZoom 0 false)
            (fst (session Gallery.SCREEN (Gallery.quiet Gallery.album 0)
                    [ItemZoom 0 true])))) =
  Some {| scrollEnabled := true |}.
Proof.
  split.
  - apply (onZoom_sets_scrollEnabled Gallery.SCREEN (Gallery.quiet Gallery.album 0)
             _ 0%nat true).
    + apply reach_mount.
    + simpl. lia.
  - apply (onZoom_sets_scrollEnabled Gallery.SCREEN (Gallery.quiet Gallery.album 0)
             _ 0%nat false).
    + apply session_reachable.
    + simpl. lia.
Defined.

(** ** The index callback *)

Lemma indexChangeCalls_app (c1 c2 : list Call) :
  indexChangeCalls (c1 ++ c2) = indexChangeCalls c1 ++ indexChangeCalls c2.
Proof.
  induction c1 as [| c rest IH]; simpl.
  - reflexivity.
  - destruct c; simpl; rewrite IH; reflexivity.
Qed.

(** No handler calls [onImageIndexChange] itself, and only the handler of
    the momentum-scroll-end event touches the index. *)
Lemma dispatch_index (SCREEN : Dimensions) (props : Props) (ev : Event) (s : State) :
  indexChangeCalls (snd (dispatch SCREEN props ev s)) = [] /\
  currentImageIndex (fst (dispatch SCREEN props ev s)) =
  match ev with
  | MomentumScrollEnd e =>
      useImageIndexChange.settledIndex SCREEN (List.length (images props)) e
  | _ => currentImageIndex s
  end.
Proof.
  destruct ev; unfold_handlers; simpl; step_cases; simpl; split; reflexivity.
Qed.

Lemma runEffects_calls (props : Props) (previousIndex : Z) (s : State) :
  snd (runEffects props previousIndex s) =
  if negb (currentImageIndex s =? previousIndex) && onImageIndexChange props
  then [CallOnImageIndexChange (currentImageIndex s)] else [].
Proof.
  unfold_handlers.
  destruct (currentImageIndex s =? previousIndex); simpl; [reflexivity |].
  destruct (onImageIndexChange props); reflexivity.
Qed.

Lemma runEffects_index (props : Props) (previousIndex : Z) (s : State) :
  currentImageIndex (fst (runEffects props previousIndex s)) = currentImageIndex s.
Proof.
  unfold_handlers.
  destruct (currentImageIndex s =? previousIndex); simpl; [reflexivity |].
  destruct (onImageIndexChange props); reflexivity.
Qed.


(** C3: the calls to [onImageIndexChange] that one event of a mounted
    overlay causes.  A momentum-scroll-end event that settles on another
    page causes exactly one call, with the settled index, when the callback
    is provided; one that settles on the current page causes none; no other
    event (a scroll still in flight, a zoom, a load, a tap) causes any. *)
Theorem onImageIndexChange_once_per_settle (SCREEN : Dimensions) (props : Props)
    (s : State) (ev : Event) :
  indexChangeCalls (snd (step SCREEN props ev s)) =
  match ev with
  | MomentumScrollEnd e =>
      let settled :=
        useImageIndexChange.settledIndex SCREEN (List.length (images props)) e in
      if negb (settled =? currentImageIndex s) && onImageIndexChange props
      then [settled] else []
  | _ => []
  end.
Proof.
  rewrite step_snd, indexChangeCalls_app, runEffects_calls.
  destruct (dispatch_index SCREEN props ev s) as [-> Hidx]. rewrite Hidx.
  simpl app.
  destruct ev; try (rewrite Z.eqb_refl; reflexivity).
  cbv zeta.
  destruct (negb _ && onImageIndexChange props); reflexivity.
Qed.

(** Section 8 of the spec, the settle-only scenario: a scroll from page 0
    that passes page 1 and comes to rest on page 2 reports page 2 once and
    page 1 never; the call with 0 is the one of the mount. *)
Example settle_only_scenario :
  snd (session Gallery.SCREEN (Gallery.full Gallery.album 0)
         [Scroll {| contentOffset_x := 200 |};
          Scroll {| contentOffset_x := 400 |};
          Scroll {| contentOffset_x := 650 |};
          Gallery.settleOn 2]) =
  [CallOnImageIndexChange 0; CallOnImageIndexChange 2].
Proof. reflexivity. Qed.

(** ** The loaded flag *)

(** With the callback, a change of the index clears the flag. *)
Lemma index_change_resets_imageLoaded (SCREEN : Dimensions) (props : Props)
    (ev : Event) (s : State) :
  onImageIndexChange props = true ->
  currentImageIndex (fst (step SCREEN props ev s)) <> currentImageIndex s ->
  imageLoaded (fst (step SCREEN props ev s)) = false.
Proof.
  intros Hcb Hne. rewrite step_fst in *. rewrite runEffects_index in Hne.
  unfold runEffects.
  destruct (currentImageIndex (fst (dispatch SCREEN props ev s)) =? currentImageIndex s)
    eqn:E.
  - apply Z.eqb_eq in E. contradiction.
  - unfold indexChangeEffect. rewrite Hcb. reflexivity.
Qed.

(** C2: the code at a change of the index without the callback.  Page 0
    has loaded; the list settles on page 1; the index changes from 0 to 1
    and [imageLoaded] is still [true]. *)
Theorem imageLoaded_kept_without_callback :
  let props := Gallery.quiet Gallery.album 0 in
  let s := fst (session Gallery.SCREEN props [ItemLoad 0]) in
  let s' := fst (step Gallery.SCREEN props (Gallery.settleOn 1) s) in
  onImageIndexChange props = false /\
  currentImageIndex s = 0 /\ imageLoaded s = true /\
  currentImageIndex s' = 1 /\ imageLoaded s' = true.
Proof. vm_compute. repeat split; reflexivity. Qed.

(** The same run with the callback: the flag is cleared. *)
Example imageLoaded_reset_with_callback :
  let props := Gallery.full Gallery.album 0 in
  let s := fst (session Gallery.SCREEN props [ItemLoad 0]) in
  let s' := fst (step Gallery.SCREEN props (Gallery.settleOn 1) s) in
  currentImageIndex s' = 1 /\ imageLoaded s' = false.
Proof. vm_compute. split; reflexivity. Qed.

(** Only the load of a page of the list sets the flag. *)
Lemma imageLoaded_set_by_load (SCREEN : Dimensions) (props : Props)
    (ev : Event) (s : State) :
  imageLoaded s = false ->
  imageLoaded (fst (step SCREEN props ev s)) = true ->
  exists index : nat,
    ev = ItemLoad index /\ (index < List.length (images props))%nat.
Proof.
  intros Hs Hs'. destruct ev;
    try (exfalso; revert Hs'; rewrite step_fst; unfold_handlers; simpl;
         step_cases; simpl; congruence).
  exists index. split; [reflexivity |].
  destruct (nth_error (images props) index) as [imageSrc |] eqn:E.
  - apply nth_error_Some. congruence.
  - exfalso. revert Hs'. rewrite step_fst. unfold_handlers. simpl. rewrite E.
    simpl. rewrite Z.eqb_refl. simpl. congruence.
Qed.

(** The load of a page of the list sets the flag. *)
Lemma load_sets_imageLoaded (SCREEN : Dimensions) (props : Props)
    (index : nat) (s : State) :
  (index < List.length (images props))%nat ->
  imageLoaded (fst (step SCREEN props (ItemLoad index) s)) = true.
Proof.
  intros Hlt. rewrite step_fst. simpl dispatch.
  destruct (forItem_in_list props index (fun _ => onFinishLoad) Hlt)
    as [imageSrc [_ ->]].
  unfold_handlers. simpl. rewrite Z.eqb_refl. reflexivity.
Qed.

(** While the index stays, the flag stays set. *)
Lemma imageLoaded_kept_on_page (SCREEN : Dimensions) (props : Props)
    (ev : Event) (s : State) :
  currentImageIndex (fst (step SCREEN props ev s)) = currentImageIndex s ->
  imageLoaded s = true ->
  imageLoaded (fst (step SCREEN props ev s)) = true.
Proof.
  rewrite step_fst, runEffects_index. intros Hidx Hs.
  unfold runEffects. rewrite Hidx, Z.eqb_refl.
  destruct ev; unfold_handlers; simpl; step_cases; simpl; congruence.
Qed.

Lemma loadSeen_app_l (props : Props) (evs more : list Event) :
  loadSeen props evs -> loadSeen props (evs ++ more).
Proof.
  intros [index [Hlt Hin]]. exists index. split; [exact Hlt |].
  apply in_or_app. left. exact Hin.
Qed.

Lemma loadSeen_app_r (props : Props) (evs more : list Event) :
  loadSeen props more -> loadSeen props (evs ++ more).
Proof.
  intros [index [Hlt Hin]]. exists index. split; [exact Hlt |].
  apply in_or_app. right. exact Hin.
Qed.

Lemma loadSeen_snoc (props : Props) (evs : list Event) (ev : Event) :
  loadSeen props (evs ++ [ev]) ->
  loadSeen props evs \/
  exists index : nat, ev = ItemLoad index /\ (index < List.length (images props))%nat.
Proof.
  intros [index [Hlt Hin]]. apply in_app_or in Hin. destruct Hin as [Hin | Hin].
  - left. exists index. split; assumption.
  - right. exists index. destruct Hin as [-> | []]. split; [reflexivity | exact Hlt].
Qed.

(** Whatever the props: a set flag at the end of a run was set before it
    or by a load within it. *)
Lemma run_imageLoaded_any (SCREEN : Dimensions) (props : Props) (evs : list Event) :
  forall s,
    imageLoaded (fst (run SCREEN props evs s)) = true ->
    imageLoaded s = true \/ loadSeen props evs.
Proof.
  induction evs as [| ev rest IH]; intros s Hend.
  - left. exact Hend.
  - rewrite run_cons_fst in Hend. destruct (IH _ Hend) as [Hmid | Hrest].
    + destruct (imageLoaded s) eqn:Hs; [left; reflexivity | right].
      destruct (imageLoaded_set_by_load SCREEN props ev s Hs Hmid)
        as [index [-> Hlt]].
      exists index. split; [exact Hlt | left; reflexivity].
    + right. apply (loadSeen_app_r props [ev] rest). exact Hrest.
Qed.

(** With the callback: the flag at the end of a run is set exactly when a
    page has loaded since the index last changed. *)
Lemma run_imageLoaded_since (SCREEN : Dimensions) (props : Props) (evs : list Event) :
  onImageIndexChange props = true ->
  forall s acc,
    (imageLoaded s = true <-> loadSeen props acc) ->
    (imageLoaded (fst (run SCREEN props evs s)) = true <->
     loadSeen props (eventsSinceIndexChange SCREEN props s evs acc)).
Proof.
  intros Hcb. induction evs as [| ev rest IH]; intros s acc Hinv.
  - exact Hinv.
  - rewrite run_cons_fst. simpl eventsSinceIndexChange.
    destruct (currentImageIndex (fst (step SCREEN props ev s)) =? currentImageIndex s)
      eqn:E; apply IH.
    + apply Z.eqb_eq in E. split.
      * intros Hs'. destruct (imageLoaded s) eqn:Hs.
        -- apply loadSeen_app_l. apply Hinv. reflexivity.
        -- destruct (imageLoaded_set_by_load SCREEN props ev s Hs Hs')
             as [index [-> Hlt]].
           apply loadSeen_app_r. exists index. split; [exact Hlt | left; reflexivity].
      * intros Hseen. apply loadSeen_snoc in Hseen.
        destruct Hseen as [Hacc | [index [-> Hlt]]].
        -- apply imageLoaded_kept_on_page; [exact E | apply Hinv; exact Hacc].
        -- apply load_sets_imageLoaded. exact Hlt.
    + apply Z.eqb_neq in E.
      rewrite (index_change_resets_imageLoaded SCREEN props ev s Hcb E).
      split; [discriminate |]. intros [index [_ []]].
Qed.

Lemma mount_imageLoaded (SCREEN : Dimensions) (props : Props) :
  imageLoaded (fst (mount SCREEN props)) = false.
Proof.
  unfold mount, indexChangeEffect. destruct (onImageIndexChange props); reflexivity.
Qed.

Lemma printButton_spec (s : State) (imageSrc : ImageSource) :
  printButton (renderItem s imageSrc) = true <->
  hasPrintButton imageSrc = true /\ imageLoaded s = true.
Proof. unfold renderItem. simpl. apply andb_true_iff. Qed.

(** C1, amended: the print affordance of an item is rendered only if
    [print_button] is true for it and some page of the list (not
    necessarily this one) has reported its load; when [onImageIndexChange]
    is provided, it is rendered exactly when [print_button] is true and some
    page has reported its load since the current index last changed. *)
Theorem printButton_after_some_load (SCREEN : Dimensions) (props : Props)
    (evs : list Event) (imageSrc : ImageSource) :
  (printButton (renderItem (fst (session SCREEN props evs)) imageSrc) = true ->
   hasPrintButton imageSrc = true /\ loadSeen props evs)
  /\
  (onImageIndexChange props = true ->
   (printButton (renderItem (fst (session SCREEN props evs)) imageSrc) = true <->
    hasPrintButton imageSrc = true /\
    loadSeen props
      (eventsSinceIndexChange SCREEN props (fst (mount SCREEN props)) evs []))).
Proof.
  rewrite printButton_spec, session_fst. split.
  - intros [Hbutton Hloaded]. split; [exact Hbutton |].
    destruct (run_imageLoaded_any SCREEN props evs _ Hloaded) as [Hmount | Hseen].
    + rewrite mount_imageLoaded in Hmount. discriminate.
    + exact Hseen.
  - intros Hcb.
    assert (Hinv : imageLoaded (fst (mount SCREEN props)) = true <-> loadSeen props []).
    { rewrite mount_imageLoaded. split; [discriminate |]. intros [index [_ []]]. }
    pose proof (run_imageLoaded_since SCREEN props evs Hcb _ [] Hinv) as Hrun.
    split; intros [Hbutton H]; (split; [exact Hbutton | apply Hrun; exact H]).
Qed.

Lemma printButton_after_some_load_witness :
  loadSeen (Gallery.full Gallery.album 0) [ItemLoad 0; Gallery.settleOn 1; ItemLoad 2]
  /\
  printButton
    (renderItem
       (fst (session Gallery.SCREEN (Gallery.full Gallery.album 0)
               [ItemLoad 0; Gallery.settleOn 1; ItemLoad 2]))
       Gallery.receipt) = true.
Proof.
  destruct (printButton_after_some_load Gallery.SCREEN (Gallery.full Gallery.album 0)
              [ItemLoad 0; Gallery.settleOn 1; ItemLoad 2] Gallery.receipt)
    as [Honly Hiff].
  split.
  - apply Honly. reflexivity.
  - apply (Hiff eq_refl). split; [reflexivity |].
    exists 2%nat. split; [simpl; lia | simpl; left; reflexivity].
Defined.

(** C1 as stated fails: page 1 reports its load, page 0 never does, and
    the print affordance of the item on page 0 is rendered. *)
Lemma printButton_exposed_by_other_item :
  ~ (forall (SCREEN : Dimensions) (props : Props) (evs : list Event)
            (index : nat) (imageSrc : ImageSource),
        nth_error (images props) index = Some imageSrc ->
        printButton (renderItem (fst (session SCREEN props evs)) imageSrc) = true ->
        In (ItemLoad index) evs).
Proof.
  intros Hclaim.
  specialize (Hclaim Gallery.SCREEN (Gallery.full Gallery.album 0) [ItemLoad 1]
                0%nat Gallery.receipt eq_refl eq_refl).
  destruct Hclaim as [Heq | []]. discriminate Heq.
Qed.

(** ** List keys *)

Lemma keysFrom_uri (data : list ImageSource) :
  forall index, keysFrom index data = map uri data.
Proof.
  induction data as [| imageSrc rest IH]; intros index; simpl.
  - reflexivity.
  - rewrite IH. reflexivity.
Qed.

(** C5, amended: the key of an item is derived from the item alone and is
    its [uri], whatever its position in the list; the keys of the rendered
    list are the [uri]s of [images] in order.  (An item without [uri] has an
    undefined key; the position is not used.) *)
Theorem keyExtractor_is_uri (props : Props) (s : State) :
  (forall (imageSrc : ImageSource) (i j : nat),
      keyExtractor imageSrc i = uri imageSrc /\
      keyExtractor imageSrc i = keyExtractor imageSrc j)
  /\
  list_keys (render props s) = map uri (images props).
Proof.
  split.
  - intros imageSrc i j. split; reflexivity.
  - simpl. apply keysFrom_uri.
Qed.

(** C5 as stated fails: an item without [uri] at position 3 has no key,
    not the key of its position. *)
Lemma keyExtractor_no_position_fallback :
  ~ (forall (imageSrc : ImageSource) (index : nat),
        uri imageSrc = None ->
        keyExtractor imageSrc index = Some (positionKey index)).
Proof.
  intros Hclaim. specialize (Hclaim Gallery.broken 3%nat eq_refl).
  discriminate Hclaim.
Qed.

(** ** The range of the index *)

Lemma mount_index (SCREEN : Dimensions) (props : Props) :
  currentImageIndex (fst (mount SCREEN props)) = imageIndex props.
Proof.
  unfold mount, indexChangeEffect. destruct (onImageIndexChange props); reflexivity.
Qed.





(** ** Header and footer *)

(** C7: a provided [HeaderComponent] is rendered with
    [{ imageIndex: currentImageIndex }]; without one the default header is
    rendered, and a tap on its close button runs the close action (one call
    of [onRequestClose]); a provided [FooterComponent] is rendered with
    [{ imageIndex: currentImageIndex }]. *)
Theorem header_footer_slots (SCREEN : Dimensions) (props : Props) (s : State) :
  (forall c : ComponentType,
      HeaderComponent props = Some c ->
      header (render props s) = createElement c (currentImageIndex s))
  /\
  (HeaderComponent props = None ->
   exists close : Event,
     header (render props s) = ImageDefaultHeader close /\
     step SCREEN props close s = useRequestClose.onRequestCloseEnhanced s /\
     snd (step SCREEN props close s) = [CallOnRequestClose])
  /\
  (forall c : ComponentType,
      FooterComponent props = Some c ->
      footer (render props s) = Some (createElement c (currentImageIndex s))).
Proof.
  repeat split.
  - intros c Hc. simpl. rewrite Hc. reflexivity.
  - intros Hnone. exists PressClose. simpl header. rewrite Hnone.
    assert (Hstep : step SCREEN props PressClose s =
                    useRequestClose.onRequestCloseEnhanced s).
    { unfold step. simpl dispatch. rewrite Hnone. unfold_handlers. simpl.
      rewrite Z.eqb_refl. reflexivity. }
    repeat split; [exact Hstep |]. rewrite Hstep. reflexivity.
  - intros c Hc. simpl. rewrite Hc. reflexivity.
Qed.

Lemma header_footer_slots_witness :
  header (render (Gallery.full Gallery.album 0)
            (fst (session Gallery.SCREEN (Gallery.full Gallery.album 0)
                    [Gallery.settleOn 2]))) =
  createElement Gallery.banner 2
  /\
  footer (render (Gallery.full Gallery.album 0)
            (fst (session Gallery.SCREEN (Gallery.full Gallery.album 0)
                    [Gallery.settleOn 2]))) =
  Some (createElement Gallery.caption 2)
  /\
  exists close : Event,
    header (render (Gallery.quiet Gallery.album 0)
              (fst (mount Gallery.SCREEN (Gallery.quiet Gallery.album 0)))) =
    ImageDefaultHeader close /\
    snd (step Gallery.SCREEN (Gallery.quiet Gallery.album 0) close
           (fst (mount Gallery.SCREEN (Gallery.quiet Gallery.album 0)))) =
    [CallOnRequestClose].
Proof.
  destruct (header_footer_slots Gallery.SCREEN (Gallery.full Gallery.album 0)
              (fst (session Gallery.SCREEN (Gallery.full Gallery.album 0)
                      [Gallery.settleOn 2])))
    as [Hheader [_ Hfooter]].
  destruct (header_footer_slots Gallery.SCREEN (Gallery.quiet Gallery.album 0)
              (fst (mount Gallery.SCREEN (Gallery.quiet Gallery.album 0))))
    as [_ [Hdefault _]].
  split; [apply (Hheader Gallery.banner); reflexivity |].
  split; [apply (Hfooter Gallery.caption); reflexivity |].
  destruct (Hdefault eq_refl) as [close [Hh [_ Hc]]].
  exists close. split; assumption.
Defined.

(** ** The play button *)

Lemma isVideoMessage_spec (imageSrc : ImageSource) :
  isVideoMessage imageSrc = true <-> type imageSrc = Some "VideoMessage"%string.
Proof.
  unfold isVideoMessage. destruct (type imageSrc) as [t |].
  - rewrite String.eqb_eq. split; congruence.
  - split; discriminate.
Qed.

(** C8: the play button of an item of the list is rendered exactly when
    its [type] is ["VideoMessage"]; a tap on it calls [VideoButtonCallback]
    once with that item when the callback is provided, calls nothing when it
    is not, and leaves the state as it is. *)
Theorem playButton_for_video (SCREEN : Dimensions) (props : Props) (s : State)
    (index : nat) (imageSrc : ImageSource) :
  nth_error (images props) index = Some imageSrc ->
  (playButton (renderItem s imageSrc) = true <->
   type imageSrc = Some "VideoMessage"%string)
  /\
  (type imageSrc = Some "VideoMessage"%string ->
   step SCREEN props (PressPlay index) s =
   (s, if VideoButtonCallback props then [CallVideoButtonCallback imageSrc] else [])).
Proof.
  intros Hitem. split.
  - apply isVideoMessage_spec.
  - intros Hvideo. apply isVideoMessage_spec in Hvideo.
    unfold step, dispatch, forItem. rewrite Hitem.
    unfold andThen, renderItem, playButton. rewrite Hvideo.
    unfold onPressPlay, runEffects, call, skip.
    destruct (VideoButtonCallback props); rewrite Z.eqb_refl; reflexivity.
Qed.

Lemma playButton_for_video_witness :
  playButton
    (renderItem (fst (mount Gallery.SCREEN (Gallery.full Gallery.album 0)))
       Gallery.clip) = true
  /\
  snd (step Gallery.SCREEN (Gallery.full Gallery.album 0) (PressPlay 1)
         (fst (mount Gallery.SCREEN (Gallery.full Gallery.album 0)))) =
  [CallVideoButtonCallback Gallery.clip]
  /\
  snd (step Gallery.SCREEN (Gallery.quiet Gallery.album 0) (PressPlay 1)
         (fst (mount Gallery.SCREEN (Gallery.quiet Gallery.album 0)))) = [].
Proof.
  destruct (playButton_for_video Gallery.SCREEN (Gallery.full Gallery.album 0)
              (fst (mount Gallery.SCREEN (Gallery.full Gallery.album 0)))
              1%nat Gallery.clip eq_refl) as [Hshown Htap].
  destruct (playButton_for_video Gallery.SCREEN (Gallery.quiet Gallery.album 0)
              (fst (mount Gallery.SCREEN (Gallery.quiet Gallery.album 0)))
              1%nat Gallery.clip eq_refl) as [_ Hquiet].
  split; [apply Hshown; reflexivity |].
  split; [rewrite (Htap eq_refl) | rewrite (Hquiet eq_refl)]; reflexivity.
Defined.

(** An item of any other type has no play button, and a tap where it would
    be reaches nothing. *)
Example no_playButton_for_photo :
  playButton
    (renderItem (fst (mount Gallery.SCREEN (Gallery.full Gallery.album 0)))
       Gallery.photo) = false
  /\
  snd (step Gallery.SCREEN (Gallery.full Gallery.album 0) (PressPlay 2)
         (fst (mount Gallery.SCREEN (Gallery.full Gallery.album 0)))) = [].
Proof. split; reflexivity. Qed.

(** ** Remounting on a new [imageIndex] *)

(** C9: the wrapper renders [ImageViewing] under a key equal to the
    [imageIndex] prop.  When a later render comes with another [imageIndex],
    the overlay is mounted anew: the current index is the new [imageIndex],
    [imageLoaded] is false, the opacity and the bars are at their initial
    values, the list is a new one with scrolling enabled, and the mount
    effect has run. *)
Theorem imageIndex_change_remounts (SCREEN : Dimensions)
    (previous : option Instance) (props0 props : Props) :
  let child := fst (EnhancedImageViewing SCREEN previous props0) in
  let next := EnhancedImageViewing SCREEN (Some child) props in
  key child = imageIndex props0 /\
  (imageIndex props <> imageIndex props0 ->
   key (fst next) = imageIndex props /\
   instanceProps (fst next) = props /\
   instanceState (fst next) = fst (mount SCREEN props) /\
   snd next = snd (mount SCREEN props) /\
   currentImageIndex (instanceState (fst next)) = imageIndex props /\
   imageLoaded (instanceState (fst next)) = false /\
   opacity (instanceState (fst next)) = useRequestClose.initial /\
   barsVisible (instanceState (fst next)) = useAnimatedComponents.initial /\
   imageList (instanceState (fst next)) = Some {| scrollEnabled := true |}).
Proof.
  cbv zeta.
  assert (Hkey : key (fst (EnhancedImageViewing SCREEN previous props0)) =
                 imageIndex props0).
  { unfold EnhancedImageViewing. destruct (mount SCREEN props0) as [s0 c0].
    destruct previous as [child |]; [| reflexivity].
    destruct (key child =? imageIndex props0); reflexivity. }
  split; [exact Hkey |]. intros Hne.
  unfold EnhancedImageViewing at 1 3 5 7 9 11 13 15 17. rewrite Hkey.
  destruct (imageIndex props0 =? imageIndex props) eqn:E.
  - apply Z.eqb_eq in E. congruence.
  - unfold mount, indexChangeEffect.
    destruct (onImageIndexChange props); simpl; repeat split; reflexivity.
Qed.

Lemma imageIndex_change_remounts_witness :
  instanceState
    (fst (EnhancedImageViewing Gallery.SCREEN
            (Some (fst (EnhancedImageViewing Gallery.SCREEN None
                          (Gallery.full Gallery.album 0))))
            (Gallery.full Gallery.album 2))) =
  fst (mount Gallery.SCREEN (Gallery.full Gallery.album 2)).
Proof.
  apply (imageIndex_change_remounts Gallery.SCREEN None
           (Gallery.full Gallery.album 0) (Gallery.full Gallery.album 2)).
  simpl. discriminate.
Defined.

(** A render with the same [imageIndex] keeps the mounted overlay and its
    state, and runs no mount effect. *)
Lemma same_imageIndex_keeps_state (SCREEN : Dimensions) (child : Instance)
    (props : Props) :
  key child = imageIndex props ->
  EnhancedImageViewing SCREEN (Some child) props =
  ({| key := imageIndex props; instanceProps := props;
      instanceState := instanceState child |}, []).
Proof.
  intros Hkey. unfold EnhancedImageViewing.
  destruct (mount SCREEN props) as [s0 c0].
  rewrite Hkey, Z.eqb_refl. reflexivity.
Qed.


(** * Further properties of the component *)

(** ** Where the calls of a run come from *)

Lemma session_snd (SCREEN : Dimensions) (props : Props) (evs : list Event) :
  snd (session SCREEN props evs) =
  snd (mount SCREEN props) ++ snd (run SCREEN props evs (fst (mount SCREEN props))).
Proof.
  unfold session. destruct (mount SCREEN props) as [s0 c0]. simpl.
  destruct (run SCREEN props evs s0) as [s c]. reflexivity.
Qed.

Lemma run_cons_snd (SCREEN : Dimensions) (props : Props) (ev : Event)
    (rest : list Event) (s : State) :
  snd (run SCREEN props (ev :: rest) s) =
  snd (step SCREEN props ev s) ++
  snd (run SCREEN props rest (fst (step SCREEN props ev s))).
Proof. simpl. apply andThen_snd. Qed.

(** A call in the log of a run was made by the step of one of its events. *)
Lemma run_calls_origin (SCREEN : Dimensions) (props : Props) (c : Call)
    (evs : list Event) :
  forall s,
    In c (snd (run SCREEN props evs s)) ->
    exists before ev after,
      evs = before ++ ev :: after /\
      In c (snd (step SCREEN props ev (fst (run SCREEN props before s)))).
Proof.
  induction evs as [| ev rest IH]; intros s Hin.
  - destruct Hin.
  - rewrite run_cons_snd in Hin. apply in_app_or in Hin.
    destruct Hin as [Hhere | Hlater].
    + exists [], ev, rest. split; [reflexivity | exact Hhere].
    + destruct (IH _ Hlater) as [before [ev' [after [-> Hstep]]]].
      exists (ev :: before), ev', after. split; [reflexivity |].
      rewrite run_cons_fst. exact Hstep.
Qed.

(** The mount effect calls nothing but [onImageIndexChange]. *)
Lemma mount_calls (SCREEN : Dimensions) (props : Props) :
  snd (mount SCREEN props) =
  if onImageIndexChange props then [CallOnImageIndexChange (imageIndex props)] else [].
Proof.
  unfold mount, indexChangeEffect. destruct (onImageIndexChange props); reflexivity.
Qed.

Lemma session_calls_origin (SCREEN : Dimensions) (props : Props) (c : Call)
    (evs : list Event) :
  In c (snd (session SCREEN props evs)) ->
  (onImageIndexChange props = true /\ c = CallOnImageIndexChange (imageIndex props))
  \/
  exists before ev after,
    evs = before ++ ev :: after /\
    In c (snd (step SCREEN props ev (fst (session SCREEN props before)))).
Proof.
  rewrite session_snd. intros Hin. apply in_app_or in Hin.
  destruct Hin as [Hmount | Hrun].
  - left. rewrite mount_calls in Hmount.
    destruct (onImageIndexChange props); [| destruct Hmount].
    destruct Hmount as [<- | []]. split; reflexivity.
  - right. destruct (run_calls_origin SCREEN props c evs _ Hrun)
      as [before [ev [after [Hevs Hstep]]]].
    exists before, ev, after. split; [exact Hevs |].
    rewrite session_fst. exact Hstep.
Qed.

Lemma onZoom_calls (isScaled : bool) (s : State) : snd (onZoom isScaled s) = [].
Proof.
  unfold onZoom. unfold_handlers. destruct (imageList s); reflexivity.
Qed.

(** The calls of the handler of an event; the effect adds the index call. *)
Lemma step_calls (SCREEN : Dimensions) (props : Props) (ev : Event) (s : State)
    (c : Call) :
  In c (snd (step SCREEN props ev s)) ->
  match c with
  | CallOnRequestClose =>
      (ev = PressClose /\ HeaderComponent props = None) \/
      (exists index : nat,
          ev = ItemRequestClose index /\ (index < List.length (images props))%nat)
  | CallOnImageIndexChange i =>
      onImageIndexChange props = true /\
      i = currentImageIndex (fst (step SCREEN props ev s)) /\
      i <> currentImageIndex s
  | CallVideoButtonCallback video =>
      VideoButtonCallback props = true /\
      exists index : nat,
        ev = PressPlay index /\
        nth_error (images props) index = Some video /\
        isVideoMessage video = true
  | CallPrintButtonCallback item =>
      PrintButtonCallback props = true /\
      exists index : nat,
        ev = PressPrint index /\
        nth_error (images props) index = Some item /\
        hasPrintButton item = true /\ imageLoaded s = true
  end.
Proof.
  rewrite step_snd, runEffects_calls, step_fst.
  pose proof (dispatch_index SCREEN props ev s) as [_ Hidx].
  intros Hin. apply in_app_or in Hin. destruct Hin as [Hhandler | Heffect].
  - (* a call of the handler *)
    clear Hidx. destruct ev; simpl in Hhandler; unfold forItem in Hhandler;
      try (destruct (nth_error (images props) index) as [imageSrc |] eqn:Hitem);
      try rewrite onZoom_calls in Hhandler;
      try (destruct Hhandler; fail).
    + (* ItemRequestClose *)
      destruct Hhandler as [<- | []]. right. exists index.
      split; [reflexivity |]. apply nth_error_Some. congruence.
    + (* PressPlay *)
      unfold renderItem, playButton, onPressPlay, call, skip in Hhandler.
      destruct (isVideoMessage imageSrc) eqn:Hvideo; [| destruct Hhandler].
      destruct (VideoButtonCallback props) eqn:Hcb; [| destruct Hhandler].
      destruct Hhandler as [<- | []]. split; [reflexivity |].
      exists index. repeat split; assumption.
    + (* PressPrint *)
      unfold renderItem, printButton, onPressPrint, call, skip in Hhandler.
      destruct (hasPrintButton imageSrc) eqn:Hbutton; [| destruct Hhandler].
      destruct (imageLoaded s) eqn:Hloaded; [| destruct Hhandler].
      simpl in Hhandler.
      destruct (PrintButtonCallback props) eqn:Hcb; [| destruct Hhandler].
      destruct Hhandler as [<- | []]. split; [reflexivity |].
      exists index. repeat split; assumption.
    + (* PressClose *)
      destruct (HeaderComponent props) eqn:Hheader; [destruct Hhandler |].
      destruct Hhandler as [<- | []]. left. split; reflexivity.
  - (* the call of the effect *)
    rewrite runEffects_index.
    destruct (currentImageIndex (fst (dispatch SCREEN props ev s)) =? currentImageIndex s)
      eqn:E; simpl in Heffect; [destruct Heffect |].
    destruct (onImageIndexChange props) eqn:Hcb; [| destruct Heffect].
    destruct Heffect as [<- | []]. apply Z.eqb_neq in E.
    repeat split; assumption.
Qed.

(** ** The print button *)

(** X1: a tap on the print button of an item of the list leaves the state
    as it is and calls [PrintButtonCallback] once with that item when the
    button is rendered ([print_button] true and [imageLoaded] set) and the
    callback is supplied; otherwise it calls nothing. *)
Theorem printButton_tap (SCREEN : Dimensions) (props : Props) (s : State)
    (index : nat) (item : ImageSource) :
  nth_error (images props) index = Some item ->
  step SCREEN props (PressPrint index) s =
  (s, if hasPrintButton item && imageLoaded s && PrintButtonCallback props
      then [CallPrintButtonCallback item] else []).
Proof.
  intros Hitem. unfold step, dispatch, forItem. rewrite Hitem.
  unfold andThen, renderItem, printButton, onPressPrint, runEffects, call, skip.
  destruct (hasPrintButton item && imageLoaded s); simpl;
    [destruct (PrintButtonCallback props) |]; rewrite Z.eqb_refl; reflexivity.
Qed.

Lemma printButton_tap_witness :
  snd (step Gallery.SCREEN (Gallery.full Gallery.album 0) (PressPrint 0)
         (fst (session Gallery.SCREEN (Gallery.full Gallery.album 0) [ItemLoad 0]))) =
  [CallPrintButtonCallback Gallery.receipt]
  /\
  snd (step Gallery.SCREEN (Gallery.full Gallery.album 0) (PressPrint 0)
         (fst (mount Gallery.SCREEN (Gallery.full Gallery.album 0)))) = [].
Proof.
  split.
  - rewrite (printButton_tap Gallery.SCREEN (Gallery.full Gallery.album 0) _
               0%nat Gallery.receipt eq_refl). reflexivity.
  - rewrite (printButton_tap Gallery.SCREEN (Gallery.full Gallery.album 0) _
               0%nat Gallery.receipt eq_refl). reflexivity.
Defined.

(** X2: in the life of a mounted overlay, every call of
    [PrintButtonCallback] comes from a tap on the print button of an item
    of the list whose [print_button] is true, and some page of the list
    had reported its load before that tap. *)
Theorem PrintButtonCallback_after_load (SCREEN : Dimensions) (props : Props)
    (evs : list Event) (item : ImageSource) :
  In (CallPrintButtonCallback item) (snd (session SCREEN props evs)) ->
  exists before index after,
    evs = before ++ PressPrint index :: after /\
    nth_error (images props) index = Some item /\
    hasPrintButton item = true /\
    loadSeen props before.
Proof.
  intros Hin. apply session_calls_origin in Hin.
  destruct Hin as [[_ Hmount] | [before [ev [after [Hevs Hstep]]]]];
    [discriminate Hmount |].
  apply step_calls in Hstep.
  destruct Hstep as [_ [index [-> [Hitem [Hbutton Hloaded]]]]].
  exists before, index, after. repeat split; try assumption.
  rewrite session_fst in Hloaded.
  destruct (run_imageLoaded_any SCREEN props before _ Hloaded) as [Hmount | Hseen].
  - rewrite mount_imageLoaded in Hmount. discriminate.
  - exact Hseen.
Qed.

Lemma PrintButtonCallback_after_load_witness :
  exists before index after,
    [ItemLoad 1; PressPrint 0] = before ++ PressPrint index :: after /\
    nth_error (images (Gallery.full Gallery.album 0)) index = Some Gallery.receipt /\
    hasPrintButton Gallery.receipt = true /\
    loadSeen (Gallery.full Gallery.album 0) before.
Proof.
  apply (PrintButtonCallback_after_load Gallery.SCREEN (Gallery.full Gallery.album 0)
           [ItemLoad 1; PressPrint 0] Gallery.receipt).
  simpl. right. left. reflexivity.
Defined.

(** ** The play button over a run *)

(** X3: in the life of a mounted overlay, every call of
    [VideoButtonCallback] comes from a tap on the play button of an item of
    the list whose [type] is ["VideoMessage"], and its argument is that
    item. *)
Theorem VideoButtonCallback_only_video (SCREEN : Dimensions) (props : Props)
    (evs : list Event) (video : ImageSource) :
  In (CallVideoButtonCallback video) (snd (session SCREEN props evs)) ->
  exists index : nat,
    In (PressPlay index) evs /\
    nth_error (images props) index = Some video /\
    type video = Some "VideoMessage"%string.
Proof.
  intros Hin. apply session_calls_origin in Hin.
  destruct Hin as [[_ Hmount] | [before [ev [after [-> Hstep]]]]];
    [discriminate Hmount |].
  apply step_calls in Hstep.
  destruct Hstep as [_ [index [-> [Hitem Hvideo]]]].
  exists index. split; [| split].
  - apply in_or_app. right. left. reflexivity.
  - exact Hitem.
  - apply isVideoMessage_spec. exact Hvideo.
Qed.

Lemma VideoButtonCallback_only_video_witness :
  exists index : nat,
    In (PressPlay index) [PressPlay 0; PressPlay 1; PressPlay 2] /\
    nth_error (images (Gallery.full Gallery.album 0)) index = Some Gallery.clip /\
    type Gallery.clip = Some "VideoMessage"%string.
Proof.
  apply (VideoButtonCallback_only_video Gallery.SCREEN (Gallery.full Gallery.album 0)
           [PressPlay 0; PressPlay 1; PressPlay 2] Gallery.clip).
  simpl. right. left. reflexivity.
Defined.

(** ** Optional callbacks *)

(** X4: the overlay never calls a callback the caller did not supply:
    every call in the log of a mounted overlay goes to [onRequestClose] or
    to an optional prop that was handed in. *)
Theorem only_supplied_callbacks_called (SCREEN : Dimensions) (props : Props)
    (evs : list Event) (c : Call) :
  In c (snd (session SCREEN props evs)) -> supplied props c = true.
Proof.
  intros Hin. apply session_calls_origin in Hin.
  destruct Hin as [[Hcb ->] | [before [ev [after [_ Hstep]]]]].
  - exact Hcb.
  - apply step_calls in Hstep. destruct c; simpl.
    + reflexivity.
    + apply Hstep.
    + apply Hstep.
    + apply Hstep.
Qed.

Lemma only_supplied_callbacks_called_witness :
  supplied (Gallery.full Gallery.album 0) (CallOnImageIndexChange 2) = true.
Proof.
  apply (only_supplied_callbacks_called Gallery.SCREEN (Gallery.full Gallery.album 0)
           [ItemLoad 0; Gallery.settleOn 2; PressPlay 1]).
  simpl. right. left. reflexivity.
Defined.

(** A caller that supplies no optional callback hears of nothing but a
    close. *)
Example quiet_caller_log :
  snd (session Gallery.SCREEN (Gallery.quiet Gallery.album 0)
         [ItemLoad 0; PressPrint 0; PressPlay 1; Gallery.settleOn 1; PressPlay 1;
          ItemZoom 1 true; ItemRequestClose 1]) = [CallOnRequestClose].
Proof. reflexivity. Qed.

(** ** Close requests *)

(** X5: in the life of a mounted overlay, [onRequestClose] is called only
    for a close request: a tap on the close button of the default header
    (rendered only without a [HeaderComponent]) or an [onRequestClose] of an
    item of the list.  Scrolling, zooming, loading and the play and print
    buttons never close the overlay.  (The close request of the [Modal]
    itself, line 105, runs the same handler; it is not among the events
    here.) *)
Theorem onRequestClose_only_on_request (SCREEN : Dimensions) (props : Props)
    (evs : list Event) :
  In CallOnRequestClose (snd (session SCREEN props evs)) ->
  (In PressClose evs /\ HeaderComponent props = None) \/
  (exists index : nat,
      In (ItemRequestClose index) evs /\ (index < List.length (images props))%nat).
Proof.
  intros Hin. apply session_calls_origin in Hin.
  destruct Hin as [[_ Hmount] | [before [ev [after [-> Hstep]]]]];
    [discriminate Hmount |].
  apply step_calls in Hstep.
  destruct Hstep as [[-> Hheader] | [index [-> Hlt]]].
  - left. split; [| exact Hheader]. apply in_or_app. right. left. reflexivity.
  - right. exists index. split; [| exact Hlt].
    apply in_or_app. right. left. reflexivity.
Qed.

Lemma onRequestClose_only_on_request_witness :
  (In PressClose [ItemZoom 0 true; PressClose] /\
   HeaderComponent (Gallery.quiet Gallery.album 0) = None) \/
  (exists index : nat,
      In (ItemRequestClose index) [ItemZoom 0 true; PressClose] /\
      (index < List.length (images (Gallery.quiet Gallery.album 0)))%nat).
Proof.
  apply (onRequestClose_only_on_request Gallery.SCREEN (Gallery.quiet Gallery.album 0)
           [ItemZoom 0 true; PressClose]).
  simpl. left. reflexivity.
Defined.

(** ** The index the caller has been told *)

(** The index calls of one step, by the index before and after it. *)
Lemma step_indexChangeCalls (SCREEN : Dimensions) (props : Props) (ev : Event)
    (s : State) :
  indexChangeCalls (snd (step SCREEN props ev s)) =
  if negb (currentImageIndex (fst (step SCREEN props ev s)) =? currentImageIndex s)
     && onImageIndexChange props
  then [currentImageIndex (fst (step SCREEN props ev s))] else [].
Proof.
  rewrite step_snd, indexChangeCalls_app, runEffects_calls, step_fst, runEffects_index.
  destruct (dispatch_index SCREEN props ev s) as [-> _]. simpl app.
  destruct (negb _ && onImageIndexChange props); reflexivity.
Qed.

Lemma noStutter_snoc (l : list Z) (a b : Z) :
  noStutter (l ++ [a]) -> a <> b -> noStutter ((l ++ [a]) ++ [b]).
Proof.
  intros Hl Hab. induction l as [| x l IH].
  - simpl. split; [exact Hab | exact I].
  - destruct l as [| y l].
    + simpl in *. destruct Hl as [Hxa _]. repeat split; assumption.
    + destruct Hl as [Hxy Hrest]. split; [exact Hxy |]. apply IH. exact Hrest.
Qed.

(** With the callback: the index calls of a run extend a log that ends
    with the current index to one that ends with the new current index, and
    add no stutter. *)
Lemma run_index_log (SCREEN : Dimensions) (props : Props) (evs : list Event) :
  onImageIndexChange props = true ->
  forall (s : State) (earlier : list Z),
    noStutter (earlier ++ [currentImageIndex s]) ->
    exists earlier' : list Z,
      (earlier ++ [currentImageIndex s]) ++
      indexChangeCalls (snd (run SCREEN props evs s)) =
      earlier' ++ [currentImageIndex (fst (run SCREEN props evs s))] /\
      noStutter (earlier' ++ [currentImageIndex (fst (run SCREEN props evs s))]).
Proof.
  intros Hcb. induction evs as [| ev rest IH]; intros s earlier Hlog.
  - exists earlier. simpl. rewrite app_nil_r. split; [reflexivity | exact Hlog].
  - rewrite run_cons_snd, run_cons_fst, indexChangeCalls_app, step_indexChangeCalls.
    rewrite Hcb, andb_true_r.
    destruct (currentImageIndex (fst (step SCREEN props ev s)) =? currentImageIndex s)
      eqn:E; simpl negb; cbv iota.
    + apply Z.eqb_eq in E. simpl app at 2.
      destruct (IH (fst (step SCREEN props ev s)) earlier) as [earlier' H].
      * rewrite E. exact Hlog.
      * exists earlier'. rewrite E in H. exact H.
    + apply Z.eqb_neq in E. rewrite app_assoc.
      destruct (IH (fst (step SCREEN props ev s)) (earlier ++ [currentImageIndex s]))
        as [earlier' H].
      * apply noStutter_snoc; [exact Hlog |]. intros Heq. apply E. symmetry. exact Heq.
      * exists earlier'. exact H.
Qed.

Lemma session_index_log (SCREEN : Dimensions) (props : Props) (evs : list Event) :
  onImageIndexChange props = true ->
  exists earlier : list Z,
    indexChangeCalls (snd (session SCREEN props evs)) =
    earlier ++ [currentImageIndex (fst (session SCREEN props evs))] /\
    noStutter (indexChangeCalls (snd (session SCREEN props evs))).
Proof.
  intros Hcb.
  rewrite session_snd, session_fst, indexChangeCalls_app, mount_calls, Hcb.
  simpl indexChangeCalls at 1.
  destruct (run_index_log SCREEN props evs Hcb (fst (mount SCREEN props)) [])
    as [earlier [Heq Hno]].
  - simpl. exact I.
  - rewrite mount_index in Heq. simpl app at 1 in Heq.
    exists earlier. change (indexChangeCalls [CallOnImageIndexChange (imageIndex props)])
      with [imageIndex props].
    change ([imageIndex props] ++
            indexChangeCalls (snd (run SCREEN props evs (fst (mount SCREEN props)))))
      with (imageIndex props ::
            indexChangeCalls (snd (run SCREEN props evs (fst (mount SCREEN props))))).
    rewrite Heq. split; [reflexivity | exact Hno].
Qed.

(** Without the callback no index call is made. *)
Lemma run_no_index_calls (SCREEN : Dimensions) (props : Props) (evs : list Event) :
  onImageIndexChange props = false ->
  forall s, indexChangeCalls (snd (run SCREEN props evs s)) = [].
Proof.
  intros Hcb. induction evs as [| ev rest IH]; intros s.
  - reflexivity.
  - rewrite run_cons_snd, indexChangeCalls_app, step_indexChangeCalls, Hcb, IH.
    rewrite andb_false_r. reflexivity.
Qed.

(** X6: when [onImageIndexChange] is supplied, the caller is in step with
    the overlay: at every moment of its life the last index it was called
    with is the current index. *)
Theorem caller_knows_current_index (SCREEN : Dimensions) (props : Props)
    (evs : list Event) :
  onImageIndexChange props = true ->
  exists earlier : list Z,
    indexChangeCalls (snd (session SCREEN props evs)) =
    earlier ++ [currentImageIndex (fst (session SCREEN props evs))].
Proof.
  intros Hcb. destruct (session_index_log SCREEN props evs Hcb) as [earlier [Heq _]].
  exists earlier. exact Heq.
Qed.

Lemma caller_knows_current_index_witness :
  exists earlier : list Z,
    indexChangeCalls
      (snd (session Gallery.SCREEN (Gallery.full Gallery.album 0)
              [Gallery.settleOn 1; ItemLoad 1; Gallery.settleOn 1; Gallery.settleOn 2])) =
    earlier ++
    [currentImageIndex
       (fst (session Gallery.SCREEN (Gallery.full Gallery.album 0)
               [Gallery.settleOn 1; ItemLoad 1; Gallery.settleOn 1;
                Gallery.settleOn 2]))].
Proof.
  apply (caller_knows_current_index Gallery.SCREEN (Gallery.full Gallery.album 0)).
  reflexivity.
Defined.

(** X7: [onImageIndexChange] is never called twice in a row with the
    same index: neighbouring calls in the log of a mounted overlay differ. *)
Theorem onImageIndexChange_no_repeat (SCREEN : Dimensions) (props : Props)
    (evs : list Event) :
  noStutter (indexChangeCalls (snd (session SCREEN props evs))).
Proof.
  destruct (onImageIndexChange props) eqn:Hcb.
  - destruct (session_index_log SCREEN props evs Hcb) as [_ [_ Hno]]. exact Hno.
  - rewrite session_snd, indexChangeCalls_app, mount_calls, Hcb.
    rewrite (run_no_index_calls SCREEN props evs Hcb). exact I.
Qed.

(** Settling twice on the page the list is on is reported once. *)
Example settle_twice_reported_once :
  indexChangeCalls
    (snd (session Gallery.SCREEN (Gallery.full Gallery.album 0)
            [Gallery.settleOn 1; Gallery.settleOn 1; Gallery.settleOn 0;
             Gallery.settleOn 0])) = [0; 1; 0].
Proof. reflexivity. Qed.

(** ** The mount effect under the wrapper *)


(** ** The pages of the list *)


(** ** Zoom reports in sequence *)

Lemma onZoom_twice (a b : bool) (s : State) :
  fst (onZoom b (fst (onZoom a s))) = fst (onZoom b s).
Proof.
  unfold onZoom. unfold_handlers. destruct (imageList s) eqn:E; simpl.
  - reflexivity.
  - rewrite E. reflexivity.
Qed.

(** X11: of two zoom reports in a row the later one decides: paging and
    bars are then as if only the later report had been made, whichever
    items made them. *)
Theorem later_zoom_report_decides (SCREEN : Dimensions) (props : Props) (s : State)
    (i j : nat) (a b : bool) :
  (i < List.length (images props))%nat ->
  (j < List.length (images props))%nat ->
  fst (step SCREEN props (ItemZoom j b) (fst (step SCREEN props (ItemZoom i a) s))) =
  fst (step SCREEN props (ItemZoom j b) s).
Proof.
  intros Hi Hj.
  rewrite (step_ItemZoom SCREEN props _ j b Hj).
  rewrite (step_ItemZoom SCREEN props s i a Hi).
  rewrite (step_ItemZoom SCREEN props s j b Hj).
  apply onZoom_twice.
Qed.

Lemma later_zoom_report_decides_witness :
  fst (step Gallery.SCREEN (Gallery.full Gallery.album 0) (ItemZoom 1 false)
         (fst (step Gallery.SCREEN (Gallery.full Gallery.album 0) (ItemZoom 0 true)
                 (fst (mount Gallery.SCREEN (Gallery.full Gallery.album 0)))))) =
  fst (step Gallery.SCREEN (Gallery.full Gallery.album 0) (ItemZoom 1 false)
         (fst (mount Gallery.SCREEN (Gallery.full Gallery.album 0)))).
Proof.
  apply (later_zoom_report_decides Gallery.SCREEN (Gallery.full Gallery.album 0)).
  - simpl. lia.
  - simpl. lia.
Defined.

(** ** Paging and bars together *)

Lemma step_keeps_paging_with_bars (SCREEN : Dimensions) (props : Props)
    (ev : Event) (s : State) :
  imageList s = Some {| scrollEnabled := barsVisible s |} ->
  imageList (fst (step SCREEN props ev s)) =
  Some {| scrollEnabled := barsVisible (fst (step SCREEN props ev s)) |}.
Proof.
  intros Hs. rewrite step_fst.
  destruct ev; unfold_handlers; simpl; step_cases; simpl;
    solve [exact Hs | reflexivity | congruence].
Qed.

(** X12: in every state of a mounted overlay, paging of the list is
    enabled exactly when the bars are visible: both are set together, by
    [onZoom] only. *)
Theorem paging_enabled_iff_bars_visible (SCREEN : Dimensions) (props : Props)
    (s : State) :
  Reachable SCREEN props s ->
  imageList s = Some {| scrollEnabled := barsVisible s |}.
Proof.
  induction 1 as [| s ev _ IH].
  - unfold mount, indexChangeEffect.
    destruct (onImageIndexChange props); reflexivity.
  - apply step_keeps_paging_with_bars. exact IH.
Qed.

Lemma paging_enabled_iff_bars_visible_witness :
  imageList
    (fst (session Gallery.SCREEN (Gallery.full Gallery.album 0)
            [ItemZoom 0 true; ItemLoad 0; Gallery.settleOn 1])) =
  Some {| scrollEnabled :=
            barsVisible
              (fst (session Gallery.SCREEN (Gallery.full Gallery.album 0)
                      [ItemZoom 0 true; ItemLoad 0; Gallery.settleOn 1])) |}.
Proof.
  apply (paging_enabled_iff_bars_visible Gallery.SCREEN (Gallery.full Gallery.album 0)).
  apply session_reachable.
Defined.

(** ** What an event leaves alone *)

(** X13: every event touches its own part of the state only.  Paging and
    bars change on a zoom report alone, the current index on a
    momentum-scroll-end alone, the opacity on a close request alone, and
    [imageLoaded] on a load report or a momentum-scroll-end alone; a scroll
    in flight and a tap on the play or print button change nothing. *)
Theorem step_frame (SCREEN : Dimensions) (props : Props) (ev : Event) (s : State) :
  let s' := fst (step SCREEN props ev s) in
  match ev with
  | ItemZoom _ _ =>
      currentImageIndex s' = currentImageIndex s /\
      opacity s' = opacity s /\ imageLoaded s' = imageLoaded s
  | MomentumScrollEnd _ =>
      barsVisible s' = barsVisible s /\ imageList s' = imageList s /\
      opacity s' = opacity s
  | ItemLoad _ =>
      barsVisible s' = barsVisible s /\ imageList s' = imageList s /\
      currentImageIndex s' = currentImageIndex s /\ opacity s' = opacity s
  | ItemRequestClose _ | PressClose =>
      barsVisible s' = barsVisible s /\ imageList s' = imageList s /\
      currentImageIndex s' = currentImageIndex s /\ imageLoaded s' = imageLoaded s
  | Scroll _ | PressPlay _ | PressPrint _ => s' = s
  end.
Proof.
  cbv zeta. rewrite step_fst.
  destruct ev; unfold_handlers; simpl; step_cases; simpl in *;
    try (match goal with
         | H : (?x =? ?x) = false |- _ => rewrite Z.eqb_refl in H; discriminate H
         end);
    repeat split; reflexivity.
Qed.
